(** * haystack_gen: the graph description emitter of settings/EvalIFG

    A shallow embedding of [settings/EvalIFG/haystack_gen.py] and the
    properties of the text it prints.

    The script binds three module-level constants and then runs a
    straight-line block of [print] calls followed by one [for] loop over
    [range(num_other_paths)].  It is embedded as a computation in a
    small monad that threads the standard output stream and may stop
    with an uncaught exception; the three constants are the arguments
    of [main].  [main] takes every call of [str] to return its text;
    [checked_main] is the same script under the interpreter's bound on
    the length of an integer's text, and the two agree within it. *)

From Stdlib Require Import ZArith List String Ascii Bool Lia.
From Stdlib Require Import Decimal DecimalString DecimalZ.
From Stdlib Require Import Floats.PrimFloat.
Import ListNotations.

Local Open Scope string_scope.
Local Open Scope Z_scope.

(** ** Values *)

(** The values the three constants can hold: a Python [int] (unbounded)
    or a Python [float] (IEEE 754 binary64). *)
Inductive pyval : Type :=
| PyInt (z : Z)
| PyFloat (x : float).

(** Uncaught exceptions the statements of the script can end with. *)
Inductive exn : Type :=
| TypeError
| ValueError.

Inductive outcome (A : Type) : Type :=
| Done (a : A)
| Raised (e : exn).
Arguments Done {A} a.
Arguments Raised {A} e.

(** ** The interpreter monad

    The state is the standard output stream, kept as the list of lines
    written so far: [print(s)] writes [s] and a line terminator, so one
    [print] call contributes one element.  The stream is assumed to
    accept every write. *)
Module Py.

Definition stream : Type := list string.

Definition py (A : Type) : Type := stream -> outcome A * stream.

Definition ret {A} (a : A) : py A := fun out => (Done a, out).

Definition bind {A B} (m : py A) (k : A -> py B) : py B :=
  fun out =>
    match m out with
    | (Done a, out') => k a out'
    | (Raised e, out') => (Raised e, out')
    end.

Definition raise {A} (e : exn) : py A := fun out => (Raised e, out).

(** [print(s)] with the default separator and terminator. *)
Definition print (s : string) : py unit :=
  fun out => (Done tt, (out ++ [s])%list).

(** [for x in xs: body]. *)
Fixpoint for_each {A} (xs : list A) (body : A -> py unit) : py unit :=
  match xs with
  | [] => ret tt
  | x :: xs' => bind (body x) (fun _ => for_each xs' body)
  end.

End Py.
Import Py.

Notation "m ;; k" := (bind m (fun _ => k))
  (at level 61, right associativity).
Notation "x <- m ;; k" := (bind m (fun x => k))
  (at level 61, m at next level, right associativity).

(** The text of the stream: every line followed by a line feed. *)
Definition LF : ascii := ascii_of_nat 10.

Definition newline : string := String LF EmptyString.

Definition stdout_text (out : stream) : string :=
  fold_right (fun l acc => l ++ newline ++ acc) "" out.

(** No line feed occurs in [s]. *)
Fixpoint newline_free (s : string) : bool :=
  match s with
  | EmptyString => true
  | String c s' => negb (c =? LF)%char && newline_free s'
  end.

(** The lines of a text, cut after every line feed. *)
Fixpoint split_lines (t : string) : list string :=
  match t with
  | EmptyString => []
  | String c t' =>
      if (c =? LF)%char then EmptyString :: split_lines t'
      else match split_lines t' with
           | [] => [String c EmptyString]
           | l :: ls => String c l :: ls
           end
  end.

(** Exit status of the interpreter: 0 when the script ran to its end, 1
    when it stopped with an uncaught exception. *)
Definition exit_code (o : outcome unit) : Z :=
  match o with
  | Done _ => 0
  | Raised _ => 1
  end.

(** ** Built-ins used by the script *)

(** [str] of an [int]: its decimal digits, with a leading minus sign for
    a negative number.  This is the text [str] returns; the
    interpreter's refusal of very long integers is [over_limit] below. *)
Definition str_int (z : Z) : string :=
  NilEmpty.string_of_int (Z.to_int z).

(** The interpreter bounds the conversion of an [int] to text: [str]
    raises [ValueError] on an integer of more than [limit] decimal
    digits, that is when [10 ^ limit <= |z|].  The bound is a setting of
    the interpreter, 4300 unless changed, and 0 switches it off. *)
Definition over_limit (limit z : Z) : bool :=
  (0 <? limit) && (10 ^ limit <=? Z.abs z).




(** The integers [0, 1, ..., n-1]; empty when [n <= 0]. *)
Definition upto (n : Z) : list Z :=
  map Z.of_nat (seq 0 (Z.to_nat n)).

(** The integers [1, 2, ..., k], the indices of the names [N1 .. Nk]. *)
Definition one_to (k : Z) : list Z :=
  map Z.of_nat (seq 1 (Z.to_nat k)).

(** ** Reading the output back

    The line format: fields separated by a comma and a space; a node line
    is [add, <name>, <fitness>] and an edge line is
    [connect, <from>, <to>, <weight>]. *)

Definition cons_head (c : ascii) (fs : list string) : list string :=
  match fs with
  | [] => [String c EmptyString]
  | f :: fs' => String c f :: fs'
  end.

(** The fields of a line, split at every [", "]. *)
Fixpoint fields (s : string) : list string :=
  match s with
  | EmptyString => [EmptyString]
  | String c s' =>
      match s' with
      | EmptyString => cons_head c (fields s')
      | String c' rest =>
          if ((c =? ",") && (c' =? " "))%char
          then EmptyString :: fields rest
          else cons_head c (fields s')
      end
  end.

(** No comma occurs in [s]. *)
Fixpoint comma_free (s : string) : bool :=
  match s with
  | EmptyString => true
  | String c s' => negb (c =? ",")%char && comma_free s'
  end.

(** The name of the distractor of index [i]. *)
Definition entry_name (i : Z) : string := "N" ++ str_int i.

(** The node a line declares, when it is a node line. *)
Definition add_name (l : string) : option string :=
  match fields l with
  | kind :: rest =>
      if (kind =? "add")%string
      then match rest with name :: _ => Some name | [] => None end
      else None
  | [] => None
  end.

(** The two endpoints of a line, when it is an edge line. *)
Definition connect_ends (l : string) : option (string * string) :=
  match fields l with
  | kind :: rest =>
      if (kind =? "connect")%string
      then match rest with from :: to :: _ => Some (from, to) | _ => None end
      else None
  | [] => None
  end.

Definition is_blank (l : string) : bool := (l =? "")%string.

Definition is_some {A} (o : option A) : bool :=
  match o with Some _ => true | None => false end.

Definition is_add (l : string) : bool := is_some (add_name l).

Definition is_connect (l : string) : bool := is_some (connect_ends l).

(** The number of lines of [ls] that pass [test]. *)
Definition count (test : string -> bool) (ls : list string) : nat :=
  List.length (filter test ls).

(** The names declared by the node lines of [ls], in order and with
    repetitions. *)
Definition added_names (ls : list string) : list string :=
  flat_map (fun l => match add_name l with Some n => [n] | None => [] end) ls.

Definition mem (x : string) (xs : list string) : bool :=
  existsb (String.eqb x) xs.

(** Scan the lines in order with the names declared so far: every edge
    line must name declared nodes only. *)
Fixpoint declared_before_use (declared ls : list string) : bool :=
  match ls with
  | [] => true
  | l :: ls' =>
      match connect_ends l with
      | Some (a, b) => mem a declared && mem b declared
      | None => true
      end
      && declared_before_use (declared ++ added_names [l]) ls'
  end.

(** The edges declared by the edge lines of [ls], in order and with
    repetitions. *)
Definition edges (ls : list string) : list (string * string) :=
  flat_map (fun l => match connect_ends l with Some e => [e] | None => [] end)
    ls.

(** The two edges of the route through [m]. *)
Definition route (m : string) : list (string * string) :=
  [("start", m); (m, "finish")].

(** The nodes between [start] and [finish]. *)
Definition middles (k : Z) : list string := "B" :: map entry_name (one_to k).

(** The text after the first [", "] of [s], when there is one. *)
Fixpoint after_sep (s : string) : option string :=
  match s with
  | EmptyString => None
  | String c s' =>
      match s' with
      | EmptyString => None
      | String c' rest =>
          if ((c =? ",") && (c' =? " "))%char then Some rest
          else after_sep s'
      end
  end.

(** The text of a line from its field of index [n] on. *)
Fixpoint from_field (n : nat) (s : string) : option string :=
  match n with
  | O => Some s
  | S n' =>
      match after_sep s with
      | Some rest => from_field n' rest
      | None => None
      end
  end.

(** The fitness text of a node line and the weight text of an edge line:
    their last field, taken whole. *)
Definition fitness_text (l : string) : option string := from_field 2 l.

Definition weight_text (l : string) : option string := from_field 3 l.

(** The three tests of a line, together. *)
Definition kind_of (l : string) : bool * bool * bool :=
  (is_blank l, is_add l, is_connect l).

(** [str] of a [float] belongs to the language runtime and not to this
    repository; it is a parameter of the development.  All that is
    asked of it is that the text of a number stays on one line. *)
Class Runtime : Type := {
  float_repr : float -> string;
  float_repr_one_line : forall x, newline_free (float_repr x) = true
}.

Section Emitter.

Context {rt : Runtime}.

Definition str (v : pyval) : string :=
  match v with
  | PyInt z => str_int z
  | PyFloat x => float_repr x
  end.

(** [range(v)]: defined on an [int] only. *)
Definition range (v : pyval) : py (list Z) :=
  match v with
  | PyInt n => ret (upto n)
  | PyFloat _ => raise TypeError
  end.

(** *** The script, lines 5 to 18 *)

Definition loop_body (other_path_fitness path_length : pyval) (i : Z)
  : py unit :=
  let node_name := "N" ++ str (PyInt (i + 1)) in
  print ("add, " ++ node_name ++ ", " ++ str other_path_fitness) ;;
  print ("connect, start, " ++ node_name ++ ", " ++ str path_length) ;;
  print ("connect, " ++ node_name ++ ", finish, 0").

Definition main (num_other_paths other_path_fitness path_length : pyval)
  : py unit :=
  print "add, start, 1" ;;
  print "" ;;
  print "add, B, 9" ;;
  print ("connect, start, B, " ++ str path_length) ;;
  print "" ;;
  print "add, finish, 10 " ;;
  print "connect, B, finish, 0" ;;
  print "" ;;
  r <- range num_other_paths ;;
  for_each r (loop_body other_path_fitness path_length).

(** *** The script under the bound on [str]

    The same statements, with every call of [str] taken as the
    interpreter runs it: the argument of [print] is evaluated first, so
    a call that raises leaves its line unwritten. *)




(** The lines a run prints on a fresh stream, and how the run ends. *)
Definition emit (n f p : pyval) : list string := snd (main n f p []).

Definition status (n f p : pyval) : outcome unit := fst (main n f p []).

(** *** The output as the specification words it

    The fixed block of eight lines, then one entry of three lines for
    each name [N1 .. Nk]. *)

Definition spec_header (path_length : pyval) : list string :=
  [ "add, start, 1";
    "";
    "add, B, 9";
    "connect, start, B, " ++ str path_length;
    "";
    "add, finish, 10 ";
    "connect, B, finish, 0";
    "" ].

Definition spec_entry (other_path_fitness path_length : pyval) (i : Z)
  : list string :=
  [ "add, N" ++ str_int i ++ ", " ++ str other_path_fitness;
    "connect, start, N" ++ str_int i ++ ", " ++ str path_length;
    "connect, N" ++ str_int i ++ ", finish, 0" ].

Definition spec_output (k : Z) (other_path_fitness path_length : pyval)
  : list string :=
  (spec_header path_length ++
   flat_map (spec_entry other_path_fitness path_length) (one_to k))%list.

End Emitter.

(** The float constant of line 2, [0.1]. *)
Definition tenth : float := 0x1.999999999999ap-4.

(** The runtime's rendering of floats, tabulated at the one float the
    script holds: what the script is run with on its own constants. *)
Definition repr_table (x : float) : string :=
  if PrimFloat.Leibniz.eqb x tenth then "0.1" else "nan".

Lemma repr_table_one_line (x : float) : newline_free (repr_table x) = true.
Proof. unfold repr_table. now destruct (Leibniz.eqb x tenth). Qed.

#[local] Instance table_runtime : Runtime :=
  {| float_repr := repr_table; float_repr_one_line := repr_table_one_line |}.

(** The script at the constants of lines 1 to 3. *)
Definition haystack_gen : py unit :=
  main (PyInt 99) (PyFloat tenth) (PyInt 7).

(** ** Running the script *)

Section Run.

Context {rt : Runtime}.

Local Open Scope list_scope.

(** A loop whose body only prints: it ends normally and has appended the
    lines of every iteration, in order. *)
Lemma for_each_prints {A} (g : A -> list string) (body : A -> py unit) :
  (forall x out, body x out = (Done tt, out ++ g x)) ->
  forall xs out, for_each xs body out = (Done tt, out ++ flat_map g xs).
Proof.
  intros Hbody xs.
  induction xs as [|x xs IH]; intros out; simpl.
  - unfold ret. now rewrite app_nil_r.
  - unfold bind. rewrite Hbody, IH. now rewrite app_assoc.
Qed.

Lemma loop_body_run (f p : pyval) (i : Z) (out : stream) :
  loop_body f p i out = (Done tt, out ++ spec_entry f p (i + 1)).
Proof.
  unfold loop_body, bind, print, spec_entry; simpl.
  now rewrite <- !app_assoc.
Qed.

Lemma header_run (p : pyval) (k : py unit) (out : stream) :
  (print "add, start, 1" ;;
   print "" ;;
   print "add, B, 9" ;;
   print ("connect, start, B, " ++ str p)%string ;;
   print "" ;;
   print "add, finish, 10 " ;;
   print "connect, B, finish, 0" ;;
   print "" ;;
   k) out = k (out ++ spec_header p).
Proof.
  unfold bind, print, spec_header; simpl.
  now rewrite <- !app_assoc.
Qed.

Lemma one_to_upto (k : Z) : one_to k = map Z.succ (upto k).
Proof.
  unfold one_to, upto.
  rewrite <- seq_shift, !map_map.
  apply map_ext; intros n. now rewrite Nat2Z.inj_succ.
Qed.

Lemma upto_nonpos (k : Z) : k <= 0 -> upto k = [].
Proof.
  intros Hk. unfold upto.
  replace (Z.to_nat k) with 0%nat by lia. reflexivity.
Qed.

Lemma upto_succ (k : Z) : 0 <= k -> upto (k + 1) = upto k ++ [k].
Proof.
  intros Hk. unfold upto.
  replace (Z.to_nat (k + 1)) with (S (Z.to_nat k)) by lia.
  rewrite seq_S, map_app; simpl.
  now rewrite Z2Nat.id.
Qed.

Lemma entries_upto (f p : pyval) (k : Z) :
  flat_map (fun i => spec_entry f p (i + 1)) (upto k) =
  flat_map (spec_entry f p) (one_to k).
Proof.
  rewrite one_to_upto.
  induction (upto k) as [|i l IH]; simpl; [reflexivity|].
  now rewrite IH.
Qed.

(** The run on an [int] count, from any stream. *)
Lemma main_int (k : Z) (f p : pyval) (out : stream) :
  main (PyInt k) f p out = (Done tt, out ++ spec_output k f p).
Proof.
  unfold main. rewrite header_run.
  unfold range, bind, ret.
  rewrite (for_each_prints (fun i => spec_entry f p (i + 1))).
  - unfold spec_output. now rewrite entries_upto, app_assoc.
  - intros i o. apply loop_body_run.
Qed.

(** The run on a [float] count: the header is printed, then [range]
    raises. *)
Lemma main_float (x : float) (f p : pyval) (out : stream) :
  main (PyFloat x) f p out = (Raised TypeError, out ++ spec_header p).
Proof.
  unfold main. now rewrite header_run.
Qed.

Lemma emit_int (k : Z) (f p : pyval) :
  emit (PyInt k) f p = spec_output k f p.
Proof. unfold emit. now rewrite main_int. Qed.

Lemma status_int (k : Z) (f p : pyval) :
  status (PyInt k) f p = Done tt.
Proof. unfold status. now rewrite main_int. Qed.

Lemma emit_float (x : float) (f p : pyval) :
  emit (PyFloat x) f p = spec_header p.
Proof. unfold emit. now rewrite main_float. Qed.

(** Whatever the stream held before, a run appends the same lines and
    ends the same way. *)
Lemma main_appends (n f p : pyval) (out : stream) :
  main n f p out = (status n f p, out ++ emit n f p).
Proof.
  unfold status, emit.
  destruct n as [k|x]; now rewrite ?main_int, ?main_float.
Qed.

Lemma string_app_assoc (a b c : string) :
  ((a ++ b) ++ c = a ++ (b ++ c))%string.
Proof.
  induction a as [|x a IH]; simpl; [reflexivity|]. now rewrite IH.
Qed.

Lemma stdout_text_app (o1 o2 : stream) :
  stdout_text (o1 ++ o2) = (stdout_text o1 ++ stdout_text o2)%string.
Proof.
  induction o1 as [|l o1 IH]; simpl; [reflexivity|].
  rewrite IH. now rewrite !string_app_assoc.
Qed.

Lemma one_to_snoc (k : Z) : 0 <= k -> one_to (k + 1) = one_to k ++ [k + 1].
Proof.
  intros Hk. rewrite !one_to_upto, upto_succ by assumption.
  now rewrite map_app.
Qed.

Lemma spec_output_succ (k : Z) (f p : pyval) :
  0 <= k ->
  spec_output (k + 1) f p = spec_output k f p ++ spec_entry f p (k + 1).
Proof.
  intros Hk. unfold spec_output.
  rewrite one_to_snoc, flat_map_app by assumption.
  change (flat_map (spec_entry f p) [k + 1])
    with (spec_entry f p (k + 1) ++ []).
  now rewrite app_nil_r, app_assoc.
Qed.

Lemma entries_length (f p : pyval) (l : list Z) :
  List.length (flat_map (spec_entry f p) l) = (3 * List.length l)%nat.
Proof.
  induction l as [|i l IH]; simpl; [reflexivity|]. rewrite IH. lia.
Qed.

Lemma one_to_length (k : Z) : List.length (one_to k) = Z.to_nat k.
Proof. unfold one_to. now rewrite length_map, length_seq. Qed.

Lemma spec_output_length (k : Z) (f p : pyval) :
  List.length (spec_output k f p) = (8 + 3 * Z.to_nat k)%nat.
Proof.
  unfold spec_output.
  rewrite length_app, entries_length, one_to_length. reflexivity.
Qed.

(** The entry of [Ni] sits right after the header and the [i - 1]
    entries before it. *)
Lemma spec_output_entry (k : Z) (f p : pyval) :
  0 <= k ->
  forall i, 1 <= i <= k ->
  firstn 3 (skipn (Z.to_nat (8 + 3 * (i - 1))) (spec_output k f p)) =
  spec_entry f p i.
Proof.
  intros Hk. pattern k. apply natlike_ind; [|clear k Hk|exact Hk].
  - intros i Hi. lia.
  - intros k Hk IH i Hi. unfold Z.succ.
    rewrite spec_output_succ by assumption.
    destruct (Z.eq_dec i (k + 1)) as [->|Hne].
    + rewrite skipn_app.
      rewrite skipn_all2 by (rewrite spec_output_length; lia).
      rewrite spec_output_length.
      replace (Z.to_nat (8 + 3 * (k + 1 - 1)) - (8 + 3 * Z.to_nat k))%nat
        with 0%nat by lia.
      reflexivity.
    + rewrite skipn_app, firstn_app.
      rewrite IH by lia.
      rewrite length_skipn, spec_output_length.
      replace (3 - (8 + 3 * Z.to_nat k - Z.to_nat (8 + 3 * (i - 1))))%nat
        with 0%nat by lia.
      now rewrite firstn_O, app_nil_r.
Qed.

Lemma entry_not_blank (f p : pyval) (i : Z) :
  Forall (fun l => is_blank l = false) (spec_entry f p i).
Proof. repeat constructor. Qed.

Lemma entries_not_blank (f p : pyval) (l : list Z) :
  Forall (fun l => is_blank l = false) (flat_map (spec_entry f p) l).
Proof.
  induction l as [|i l IH]; [constructor|].
  change (flat_map (spec_entry f p) (i :: l))
    with (spec_entry f p i ++ flat_map (spec_entry f p) l).
  apply Forall_app. split; [apply entry_not_blank | exact IH].
Qed.

(** ** Fields of the lines printed *)

Lemma fields_prefix (a rest : string) :
  comma_free a = true ->
  fields (a ++ String "," (String " " rest)) = a :: fields rest.
Proof.
  induction a as [|c a IH]; intros Ha; [reflexivity|].
  simpl in Ha. apply andb_prop in Ha. destruct Ha as [Hc Ha].
  change (String c a ++ String "," (String " " rest))%string
    with (String c (a ++ String "," (String " " rest))).
  assert (Hstep : forall t,
    fields (String c t) = cons_head c (fields t)).
  { intros [|c' t]; simpl; [reflexivity|].
    apply negb_true_iff in Hc. now rewrite Hc. }
  now rewrite Hstep, IH.
Qed.

Lemma comma_free_uint (d : uint) :
  comma_free (NilEmpty.string_of_uint d) = true.
Proof. induction d; simpl; auto. Qed.

Lemma comma_free_str_int (i : Z) : comma_free (str_int i) = true.
Proof.
  unfold str_int, NilEmpty.string_of_int.
  destruct (Z.to_int i); simpl; apply comma_free_uint.
Qed.

Lemma comma_free_entry_name (i : Z) : comma_free (entry_name i) = true.
Proof. unfold entry_name; simpl. apply comma_free_str_int. Qed.

Lemma str_int_inj (i j : Z) : str_int i = str_int j -> i = j.
Proof.
  unfold str_int. intros H.
  apply to_int_inj.
  assert (E : Some (Z.to_int i) = Some (Z.to_int j))
    by now rewrite <- !NilEmpty.isi, H.
  now inversion E.
Qed.

Lemma entry_name_inj (i j : Z) : entry_name i = entry_name j -> i = j.
Proof.
  unfold entry_name; simpl. intros H. inversion H. now apply str_int_inj.
Qed.

Lemma fields_add_entry (i : Z) (v : string) :
  fields ("add, N" ++ str_int i ++ ", " ++ v) =
  "add" :: entry_name i :: fields v.
Proof.
  change ("add, N" ++ str_int i ++ ", " ++ v)%string
    with ("add" ++ String "," (String " "
           (entry_name i ++ String "," (String " " v))))%string.
  rewrite fields_prefix by reflexivity.
  now rewrite fields_prefix by apply comma_free_entry_name.
Qed.

Lemma fields_connect_start_entry (i : Z) (v : string) :
  fields ("connect, start, N" ++ str_int i ++ ", " ++ v) =
  "connect" :: "start" :: entry_name i :: fields v.
Proof.
  change ("connect, start, N" ++ str_int i ++ ", " ++ v)%string
    with ("connect" ++ String "," (String " "
           ("start" ++ String "," (String " "
             (entry_name i ++ String "," (String " " v))))))%string.
  rewrite !fields_prefix by reflexivity.
  now rewrite fields_prefix by apply comma_free_entry_name.
Qed.

Lemma fields_connect_entry_finish (i : Z) :
  fields ("connect, N" ++ str_int i ++ ", finish, 0") =
  ["connect"; entry_name i; "finish"; "0"].
Proof.
  change ("connect, N" ++ str_int i ++ ", finish, 0")%string
    with ("connect" ++ String "," (String " "
           (entry_name i ++ String "," (String " " "finish, 0"))))%string.
  rewrite fields_prefix by reflexivity.
  now rewrite fields_prefix by apply comma_free_entry_name.
Qed.

(** What the three lines of an entry declare and connect. *)
Lemma entry_reading (f p : pyval) (i : Z) :
  map add_name (spec_entry f p i) = [Some (entry_name i); None; None]
  /\ map connect_ends (spec_entry f p i) =
     [None; Some ("start", entry_name i); Some (entry_name i, "finish")].
Proof.
  unfold spec_entry; cbn [map]. unfold add_name, connect_ends.
  now rewrite fields_add_entry, fields_connect_start_entry,
    fields_connect_entry_finish.
Qed.

Lemma header_reading (p : pyval) :
  map add_name (spec_header p) =
    [Some "start"; None; Some "B"; None; None; Some "finish"; None; None]
  /\ map connect_ends (spec_header p) =
     [None; None; None; Some ("start", "B"); None; None;
      Some ("B", "finish"); None].
Proof.
  unfold spec_header; cbn [map]. unfold add_name, connect_ends.
  change ("connect, start, B, " ++ str p)%string
    with ("connect" ++ String "," (String " "
           ("start" ++ String "," (String " "
             ("B" ++ String "," (String " " (str p)))))))%string.
  now rewrite !fields_prefix by reflexivity.
Qed.

Lemma added_names_app (l1 l2 : list string) :
  added_names (l1 ++ l2) = added_names l1 ++ added_names l2.
Proof. apply flat_map_app. Qed.

Lemma added_names_map (ls : list string) :
  added_names ls =
  flat_map (fun o => match o with Some n => [n] | None => [] end)
    (map add_name ls).
Proof. unfold added_names. now rewrite flat_map_concat_map, flat_map_concat_map, map_map. Qed.

Lemma added_names_entry (f p : pyval) (i : Z) :
  added_names (spec_entry f p i) = [entry_name i].
Proof.
  rewrite added_names_map.
  now rewrite (proj1 (entry_reading f p i)).
Qed.

Lemma added_names_header (p : pyval) :
  added_names (spec_header p) = ["start"; "B"; "finish"].
Proof.
  rewrite added_names_map.
  now rewrite (proj1 (header_reading p)).
Qed.

Lemma added_names_entries (f p : pyval) (l : list Z) :
  added_names (flat_map (spec_entry f p) l) = map entry_name l.
Proof.
  induction l as [|i l IH]; [reflexivity|].
  change (flat_map (spec_entry f p) (i :: l))
    with (spec_entry f p i ++ flat_map (spec_entry f p) l).
  now rewrite added_names_app, added_names_entry, IH.
Qed.

Lemma added_names_output (k : Z) (f p : pyval) :
  added_names (spec_output k f p) =
  ["start"; "B"; "finish"] ++ map entry_name (one_to k).
Proof.
  unfold spec_output.
  now rewrite added_names_app, added_names_header, added_names_entries.
Qed.

Lemma in_one_to (k i : Z) : In i (one_to k) <-> 1 <= i <= k.
Proof.
  unfold one_to. rewrite in_map_iff. split.
  - intros (n & <- & Hn). apply in_seq in Hn. lia.
  - intros Hi. exists (Z.to_nat i). split; [lia|]. apply in_seq. lia.
Qed.

Lemma one_to_NoDup (k : Z) : NoDup (one_to k).
Proof.
  unfold one_to.
  generalize (seq_NoDup (Z.to_nat k) 1).
  induction 1 as [|n l Hn _ IH]; simpl; constructor; [|exact IH].
  rewrite in_map_iff. intros (m & Hm & Hin).
  apply Nat2Z.inj in Hm. now subst m.
Qed.

Lemma node_names_NoDup (l : list Z) : NoDup l -> NoDup (map entry_name l).
Proof.
  induction 1 as [|i l Hi _ IH]; simpl; constructor; [|exact IH].
  rewrite in_map_iff. intros (j & Hj & Hin).
  apply entry_name_inj in Hj. now subst j.
Qed.

Lemma reserved_not_entry_name (n : string) (l : list Z) :
  In n ["start"; "B"; "finish"] -> ~ In n (map entry_name l).
Proof.
  intros Hn Hin. apply in_map_iff in Hin. destruct Hin as (i & Hi & _).
  unfold entry_name in Hi; simpl in Hi.
  destruct Hn as [<-|[<-|[<-|[]]]]; discriminate Hi.
Qed.

Lemma added_names_output_NoDup (k : Z) (f p : pyval) :
  NoDup (added_names (spec_output k f p)).
Proof.
  rewrite added_names_output.
  apply NoDup_app.
  - repeat constructor; simpl; intuition discriminate.
  - apply node_names_NoDup, one_to_NoDup.
  - intros n. apply reserved_not_entry_name.
Qed.

Lemma count_app (test : string -> bool) (l1 l2 : list string) :
  count test (l1 ++ l2) = (count test l1 + count test l2)%nat.
Proof. unfold count. now rewrite filter_app, length_app. Qed.

Lemma is_add_entry (f p : pyval) (i : Z) :
  map is_add (spec_entry f p i) = [true; false; false].
Proof.
  unfold is_add. rewrite <- (map_map add_name is_some).
  now rewrite (proj1 (entry_reading f p i)).
Qed.

Lemma is_connect_entry (f p : pyval) (i : Z) :
  map is_connect (spec_entry f p i) = [false; true; true].
Proof.
  unfold is_connect. rewrite <- (map_map connect_ends is_some).
  now rewrite (proj2 (entry_reading f p i)).
Qed.

Lemma count_map (test : string -> bool) (ls : list string) :
  count test ls = List.length (filter (fun b => b) (map test ls)).
Proof.
  unfold count. induction ls as [|l ls IH]; simpl; [reflexivity|].
  destruct (test l); simpl; now rewrite IH.
Qed.

Lemma count_entries (f p : pyval) (l : list Z) :
  count is_add (flat_map (spec_entry f p) l) = List.length l
  /\ count is_connect (flat_map (spec_entry f p) l) = (2 * List.length l)%nat
  /\ count (fun s => negb (is_blank s)) (flat_map (spec_entry f p) l) =
     (3 * List.length l)%nat.
Proof.
  induction l as [|i l (IHa & IHc & IHn)]; [repeat split|].
  change (flat_map (spec_entry f p) (i :: l))
    with (spec_entry f p i ++ flat_map (spec_entry f p) l).
  rewrite !count_app, IHa, IHc, IHn.
  rewrite (count_map is_add (spec_entry f p i)), is_add_entry.
  rewrite (count_map is_connect (spec_entry f p i)), is_connect_entry.
  simpl. repeat split; lia.
Qed.

Lemma count_header (p : pyval) :
  count is_add (spec_header p) = 3%nat
  /\ count is_connect (spec_header p) = 2%nat
  /\ count (fun s => negb (is_blank s)) (spec_header p) = 5%nat
  /\ count is_blank (spec_header p) = 3%nat.
Proof.
  rewrite (count_map is_add), (count_map is_connect).
  unfold is_add, is_connect.
  rewrite <- (map_map add_name is_some), <- (map_map connect_ends is_some).
  rewrite (proj1 (header_reading p)), (proj2 (header_reading p)).
  repeat split.
Qed.

Lemma count_output (k : Z) (f p : pyval) :
  count is_add (spec_output k f p) = (3 + Z.to_nat k)%nat
  /\ count is_connect (spec_output k f p) = (2 + 2 * Z.to_nat k)%nat
  /\ count (fun s => negb (is_blank s)) (spec_output k f p) =
     (5 + 3 * Z.to_nat k)%nat.
Proof.
  unfold spec_output. rewrite !count_app.
  destruct (count_header p) as (-> & -> & -> & _).
  destruct (count_entries f p (one_to k)) as (-> & -> & ->).
  now rewrite one_to_length.
Qed.

(** ** Declaration before use *)

Lemma mem_In (x : string) (xs : list string) : mem x xs = true <-> In x xs.
Proof.
  unfold mem. rewrite existsb_exists. split.
  - intros (y & Hy & E). apply String.eqb_eq in E. now subst y.
  - intros H. exists x. split; [exact H | apply String.eqb_refl].
Qed.

Lemma declared_before_use_app (l1 l2 d : list string) :
  declared_before_use d (l1 ++ l2) =
  declared_before_use d l1 &&
  declared_before_use (d ++ added_names l1) l2.
Proof.
  revert d. induction l1 as [|l l1 IH]; intros d.
  - simpl. now rewrite app_nil_r.
  - change ((l :: l1) ++ l2) with (l :: (l1 ++ l2)).
    cbn [declared_before_use]. rewrite IH.
    change (l :: l1) with ([l] ++ l1).
    now rewrite added_names_app, app_assoc, andb_assoc.
Qed.

(** The scan is a sound test: it accepts only outputs in which every
    edge line comes after the node lines of both its endpoints. *)
Lemma declared_before_use_sound (d ls : list string) :
  declared_before_use d ls = true ->
  forall pre l post a b,
    ls = pre ++ l :: post ->
    connect_ends l = Some (a, b) ->
    In a (d ++ added_names pre) /\ In b (d ++ added_names pre).
Proof.
  intros H pre l post a b -> Hl.
  rewrite declared_before_use_app in H.
  apply andb_prop in H. destruct H as [_ H].
  cbn [declared_before_use] in H. rewrite Hl in H.
  apply andb_prop in H. destruct H as [H _].
  apply andb_prop in H. destruct H as [Ha Hb].
  now rewrite <- !mem_In.
Qed.

(** From an equation between two lists of readings, the equation at
    position [n]. *)
Ltac reading_at H n name :=
  pose proof (f_equal (fun l => nth n l None) H) as name;
  cbn [nth map] in name.

Lemma entry_scoped (f p : pyval) (i : Z) (d : list string) :
  In "start" d -> In "finish" d ->
  declared_before_use d (spec_entry f p i) = true.
Proof.
  intros Hs Hf.
  destruct (entry_reading f p i) as [Ha Hc].
  unfold spec_entry in *.
  reading_at Ha 0%nat Ha1. reading_at Ha 1%nat Ha2.
  reading_at Hc 0%nat Hc1. reading_at Hc 1%nat Hc2. reading_at Hc 2%nat Hc3.
  cbn [declared_before_use].
  unfold added_names; cbn [flat_map].
  rewrite Ha1, Ha2, Hc1, Hc2, Hc3; cbn [app].
  assert (Hmem : forall x xs, In x xs -> mem x xs = true)
    by (intros; now apply mem_In).
  rewrite !Hmem by (rewrite ?in_app_iff; simpl; auto).
  reflexivity.
Qed.

Lemma entries_scoped (f p : pyval) (l : list Z) :
  forall d, In "start" d -> In "finish" d ->
  declared_before_use d (flat_map (spec_entry f p) l) = true.
Proof.
  induction l as [|i l IH]; intros d Hs Hf; [reflexivity|].
  change (flat_map (spec_entry f p) (i :: l))
    with (spec_entry f p i ++ flat_map (spec_entry f p) l).
  rewrite declared_before_use_app, entry_scoped by assumption.
  apply IH; apply in_or_app; now left.
Qed.

Lemma header_scoped (p : pyval) :
  declared_before_use [] (spec_header p) = true.
Proof.
  destruct (header_reading p) as [Ha Hc].
  unfold spec_header in *.
  reading_at Ha 3%nat Ha4. reading_at Hc 3%nat Hc4.
  cbn [declared_before_use].
  unfold added_names; cbn [flat_map].
  rewrite Ha4, Hc4.
  reflexivity.
Qed.

Lemma output_scoped (k : Z) (f p : pyval) :
  declared_before_use [] (spec_output k f p) = true.
Proof.
  unfold spec_output.
  rewrite declared_before_use_app, header_scoped, added_names_header.
  apply entries_scoped; simpl; auto.
Qed.

(** ** Lines and text

    A [print] call writes one line: cutting the text of a run at its
    line feeds gives back the list of printed strings. *)

Lemma newline_free_app (a b : string) :
  newline_free (a ++ b) = newline_free a && newline_free b.
Proof.
  induction a as [|c a IH]; simpl; [reflexivity|].
  now rewrite IH, andb_assoc.
Qed.

Lemma newline_free_uint (d : uint) :
  newline_free (NilEmpty.string_of_uint d) = true.
Proof. induction d; simpl; auto. Qed.

Lemma newline_free_str (v : pyval) : newline_free (str v) = true.
Proof.
  destruct v as [z|x]; simpl; [|apply float_repr_one_line].
  unfold str_int, NilEmpty.string_of_int.
  destruct (Z.to_int z); simpl; apply newline_free_uint.
Qed.

Lemma split_lines_line (l rest : string) :
  newline_free l = true ->
  split_lines (l ++ newline ++ rest) = l :: split_lines rest.
Proof.
  induction l as [|c l IH]; intros Hl; [reflexivity|].
  simpl in Hl. apply andb_prop in Hl. destruct Hl as [Hc Hl].
  apply negb_true_iff in Hc.
  change (String c l ++ newline ++ rest)%string
    with (String c (l ++ newline ++ rest)).
  cbn [split_lines]. now rewrite Hc, IH.
Qed.

Lemma split_lines_text (out : stream) :
  Forall (fun l => newline_free l = true) out ->
  split_lines (stdout_text out) = out.
Proof.
  induction 1 as [|l out Hl _ IH]; [reflexivity|].
  cbn [stdout_text fold_right].
  fold (stdout_text out).
  now rewrite split_lines_line, IH.
Qed.

Lemma header_one_line (p : pyval) :
  Forall (fun l => newline_free l = true) (spec_header p).
Proof.
  unfold spec_header.
  repeat apply Forall_cons; try apply Forall_nil; try reflexivity.
  rewrite newline_free_app. apply newline_free_str.
Qed.

Lemma entry_one_line (f p : pyval) (i : Z) :
  Forall (fun l => newline_free l = true) (spec_entry f p i).
Proof.
  assert (Hi : newline_free (str_int i) = true)
    by apply (newline_free_str (PyInt i)).
  unfold spec_entry.
  repeat apply Forall_cons; try apply Forall_nil;
    rewrite !newline_free_app, Hi, ?newline_free_str; reflexivity.
Qed.

Lemma emit_one_line (n f p : pyval) :
  Forall (fun l => newline_free l = true) (emit n f p).
Proof.
  destruct n as [k|x]; [|rewrite emit_float; apply header_one_line].
  rewrite emit_int. unfold spec_output.
  apply Forall_app. split; [apply header_one_line|].
  induction (one_to k) as [|i l IH]; [constructor|].
  change (flat_map (spec_entry f p) (i :: l))
    with (spec_entry f p i ++ flat_map (spec_entry f p) l).
  apply Forall_app. split; [apply entry_one_line | exact IH].
Qed.

Lemma emit_text_lines (n f p : pyval) :
  split_lines (stdout_text (emit n f p)) = emit n f p.
Proof. apply split_lines_text, emit_one_line. Qed.

(** ** The claims on the shape of the output *)

(** C1: for every count [k >= 0] the lines printed are, in order, the
    eight lines of the header ([add, start, 1], a blank line,
    [add, B, 9], [connect, start, B, <path_length>], a blank line,
    [add, finish, 10 ] with its trailing space, [connect, B, finish, 0],
    a blank line) and then, for [i] from 1 to [k], the three lines of
    [Ni]: [add, Ni, <other_path_fitness>],
    [connect, start, Ni, <path_length>], [connect, Ni, finish, 0].  The
    distractor block holds no blank line, every number is rendered by
    [str], and these are the lines of the text written. *)
Theorem C1_output_exact (k : Z) (f p : pyval) :
  0 <= k ->
  let out := emit (PyInt k) f p in
  out = spec_output k f p
  /\ firstn 8 out =
       [ "add, start, 1"; ""; "add, B, 9";
         ("connect, start, B, " ++ str p)%string; "";
         "add, finish, 10 "; "connect, B, finish, 0"; "" ]
  /\ List.length out = (8 + 3 * Z.to_nat k)%nat
  /\ (forall i, 1 <= i <= k ->
       firstn 3 (skipn (Z.to_nat (8 + 3 * (i - 1))) out) =
       [ ("add, N" ++ str_int i ++ ", " ++ str f)%string;
         ("connect, start, N" ++ str_int i ++ ", " ++ str p)%string;
         ("connect, N" ++ str_int i ++ ", finish, 0")%string ])
  /\ Forall (fun l => is_blank l = false) (skipn 8 out)
  /\ split_lines (stdout_text out) = out.
Proof.
  intros Hk out. subst out.
  split; [apply emit_int|].
  rewrite emit_text_lines, emit_int.
  split; [reflexivity|].
  split; [apply spec_output_length|].
  split; [apply spec_output_entry; exact Hk|].
  split; [|reflexivity].
  unfold spec_output. simpl skipn. apply entries_not_blank.
Qed.

(** C3, as amended: with a count of 0 the output is exactly the header
    block, which has eight lines, five directives and three blank
    lines, and no distractor line follows it. *)
Theorem C3_zero_is_header (f p : pyval) :
  let out := emit (PyInt 0) f p in
  out = spec_header p
  /\ List.length out = 8%nat
  /\ List.length (filter is_blank out) = 3%nat
  /\ List.length (filter (fun l => negb (is_blank l)) out) = 5%nat.
Proof.
  simpl. rewrite emit_int. repeat split.
Qed.

(** C6: a negative count is not rejected: the run ends normally after
    printing the header block and nothing else, whatever the other two
    constants are. *)
Theorem C6_negative_count (k : Z) (f p : pyval) :
  k < 0 ->
  status (PyInt k) f p = Done tt /\ emit (PyInt k) f p = spec_header p.
Proof.
  intros Hk. rewrite status_int, emit_int. split; [reflexivity|].
  unfold spec_output, one_to.
  replace (Z.to_nat k) with 0%nat by lia. reflexivity.
Qed.












(** C9: for [k >= 0] the output for [k] is a prefix of the output for
    [k + 1]: one more distractor appends the three lines of [N(k+1)]
    and leaves the earlier lines as they were. *)
Theorem C9_prefix_monotone (k : Z) (f p : pyval) :
  0 <= k ->
  emit (PyInt (k + 1)) f p = emit (PyInt k) f p ++ spec_entry f p (k + 1)
  /\ firstn (List.length (emit (PyInt k) f p)) (emit (PyInt (k + 1)) f p) =
     emit (PyInt k) f p.
Proof.
  intros Hk. rewrite !emit_int, spec_output_succ by assumption.
  split; [reflexivity|].
  rewrite firstn_app, firstn_all, Nat.sub_diag; simpl.
  now rewrite app_nil_r.
Qed.

(** C10: the first eight lines depend on [path_length] only: two runs
    with the same [path_length] print the same first eight lines,
    whatever their counts and fitness values are. *)
Theorem C10_header_depends_on_path_length (n1 n2 f1 f2 p : pyval) :
  firstn 8 (emit n1 f1 p) = firstn 8 (emit n2 f2 p).
Proof.
  assert (H : forall n f, firstn 8 (emit n f p) = spec_header p).
  { intros [k|x] f; [rewrite emit_int | rewrite emit_float]; reflexivity. }
  now rewrite !H.
Qed.

(** C2, as amended: at the constants of the script (99, 0.1, 7) the
    output has 5 + 3 * 99 = 302 lines besides its 3 blank lines: 102
    [add] lines and 2 + 2 * 99 = 200 [connect] lines.  The header comes
    first and the 99 entries follow it in order, and the fitness field of
    [finish] is ["10 "], with its trailing space. *)
Theorem C2_reference_counts :
  let out := emit (PyInt 99) (PyFloat tenth) (PyInt 7) in
  count (fun l => negb (is_blank l)) out = 302%nat
  /\ count is_blank out = 3%nat
  /\ count is_add out = 102%nat
  /\ count is_connect out = 200%nat
  /\ out = spec_header (PyInt 7) ++
           flat_map (spec_entry (PyFloat tenth) (PyInt 7)) (one_to 99)
  /\ fields (nth 5 out "") = ["add"; "finish"; "10 "].
Proof.
  intros out. subst out. rewrite emit_int.
  destruct (count_output 99 (PyFloat tenth) (PyInt 7)) as (Ha & Hc & Hn).
  rewrite Ha, Hc, Hn.
  repeat split.
Qed.

(** C4: for every count [k >= 0] the names declared by the [add] lines
    are [start], [B], [finish] and [N1 .. Nk] and no other, and each of
    them is declared by exactly one [add] line. *)
Theorem C4_declared_names (k : Z) (f p : pyval) :
  0 <= k ->
  let names := added_names (emit (PyInt k) f p) in
  (forall n,
     In n names <->
     n = "start" \/ n = "B" \/ n = "finish" \/
     exists i, 1 <= i <= k /\ n = ("N" ++ str_int i)%string)
  /\ (forall n, In n names -> count_occ string_dec names n = 1%nat).
Proof.
  intros Hk names. subst names. rewrite emit_int. split.
  - intros n. rewrite added_names_output, in_app_iff, in_map_iff. simpl.
    split.
    + intros [[<-|[<-|[<-|[]]]]|(i & <- & Hi)]; auto.
      right; right; right. exists i. split; [now apply in_one_to | reflexivity].
    + intros [->|[->|[->|(i & Hi & ->)]]]; auto.
      right. exists i. split; [reflexivity | now apply in_one_to].
  - apply NoDup_count_occ', added_names_output_NoDup.
Qed.

(** C5: for every count [k >= 0], each endpoint of a [connect] line is
    the name of an [add] line printed earlier: no edge refers to a node
    that is not yet declared. *)
Theorem C5_declared_before_connected (k : Z) (f p : pyval) :
  0 <= k ->
  forall pre l post a b,
    emit (PyInt k) f p = pre ++ l :: post ->
    connect_ends l = Some (a, b) ->
    In a (added_names pre) /\ In b (added_names pre).
Proof.
  intros Hk pre l post a b Hout Hl.
  rewrite emit_int in Hout.
  exact (declared_before_use_sound [] _ (output_scoped k f p)
           pre l post a b Hout Hl).
Qed.

End Run.

(** ** The graph the output describes *)

Section Graph.

Context {rt : Runtime}.

Local Open Scope list_scope.

(** From an equation between two lists, the equation at position [n]. *)
Ltac pick H n d name :=
  pose proof (f_equal (fun l => nth n l d) H) as name;
  cbn [nth map] in name.

Lemma kind_of_entry (f p : pyval) (i : Z) :
  map kind_of (spec_entry f p i) =
  [(false, true, false); (false, false, true); (false, false, true)].
Proof.
  pose proof (is_add_entry f p i) as Ha.
  pose proof (is_connect_entry f p i) as Hc.
  unfold spec_entry in *.
  pick Ha 0%nat false Ha1. pick Ha 1%nat false Ha2. pick Ha 2%nat false Ha3.
  pick Hc 0%nat false Hc1. pick Hc 1%nat false Hc2. pick Hc 2%nat false Hc3.
  cbn [map]. unfold kind_of.
  now rewrite Ha1, Ha2, Ha3, Hc1, Hc2, Hc3.
Qed.

Lemma kind_of_header (p : pyval) :
  map kind_of (spec_header p) =
  [(false, true, false); (true, false, false); (false, true, false);
   (false, false, true); (true, false, false); (false, true, false);
   (false, false, true); (true, false, false)].
Proof.
  destruct (header_reading p) as [Ha Hc].
  unfold spec_header in *.
  pick Ha 3%nat (@None string) Ha4.
  pick Hc 3%nat (@None (string * string)) Hc4.
  cbn [map]. unfold kind_of, is_add, is_connect.
  now rewrite Ha4, Hc4.
Qed.

Lemma in_emit (n f p : pyval) (l : string) :
  In l (emit n f p) ->
  In l (spec_header p) \/ exists i, In l (spec_entry f p i).
Proof.
  destruct n as [k|x]; [rewrite emit_int | rewrite emit_float; now left].
  unfold spec_output. rewrite in_app_iff, in_flat_map.
  intros [H|(i & _ & H)]; [now left | right; now exists i].
Qed.

(** X2: every line printed is of exactly one kind: a blank line, a node
    line or an edge line. *)
Theorem X2_lines_classified (n f p : pyval) (l : string) :
  In l (emit n f p) ->
  kind_of l = (true, false, false)
  \/ kind_of l = (false, true, false)
  \/ kind_of l = (false, false, true).
Proof.
  intros Hl. apply in_emit in Hl.
  destruct Hl as [Hl|(i & Hl)]; apply (in_map kind_of) in Hl.
  - rewrite kind_of_header in Hl. simpl in Hl.
    repeat (destruct Hl as [<-|Hl]; [auto|]). destruct Hl.
  - rewrite kind_of_entry in Hl. simpl in Hl.
    repeat (destruct Hl as [<-|Hl]; [auto|]). destruct Hl.
Qed.

Lemma edges_app (l1 l2 : list string) :
  edges (l1 ++ l2) = edges l1 ++ edges l2.
Proof. apply flat_map_app. Qed.

Lemma edges_map (ls : list string) :
  edges ls =
  flat_map (fun o => match o with Some e => [e] | None => [] end)
    (map connect_ends ls).
Proof.
  unfold edges. now rewrite flat_map_concat_map, flat_map_concat_map, map_map.
Qed.

Lemma edges_entry (f p : pyval) (i : Z) :
  edges (spec_entry f p i) = route (entry_name i).
Proof.
  rewrite edges_map. now rewrite (proj2 (entry_reading f p i)).
Qed.

Lemma edges_header (p : pyval) : edges (spec_header p) = route "B".
Proof.
  rewrite edges_map. now rewrite (proj2 (header_reading p)).
Qed.

Lemma edges_entries (f p : pyval) (l : list Z) :
  edges (flat_map (spec_entry f p) l) = flat_map route (map entry_name l).
Proof.
  induction l as [|i l IH]; [reflexivity|].
  change (flat_map (spec_entry f p) (i :: l))
    with (spec_entry f p i ++ flat_map (spec_entry f p) l).
  rewrite edges_app, edges_entry, IH. reflexivity.
Qed.

Lemma edges_output (k : Z) (f p : pyval) :
  edges (spec_output k f p) = flat_map route (middles k).
Proof.
  unfold spec_output, middles.
  now rewrite edges_app, edges_header, edges_entries.
Qed.

Lemma flat_map_route_names (l : list Z) :
  flat_map route (map entry_name l) =
  flat_map (fun i => route (entry_name i)) l.
Proof.
  induction l as [|i l IH]; [reflexivity|].
  cbn [map flat_map]. now rewrite IH.
Qed.

(** X3: the edges read from the output, in order: [start -> B],
    [B -> finish], then [start -> Ni] and [Ni -> finish] for [i] from 1
    to the count; none at all comes from the distractor block when the
    count is zero or negative. *)
Theorem X3_edges_exact (k : Z) (f p : pyval) :
  edges (emit (PyInt k) f p) =
  [("start", "B"); ("B", "finish")] ++
  flat_map (fun i => [ ("start", ("N" ++ str_int i)%string);
                       (("N" ++ str_int i)%string, "finish") ])
    (one_to k).
Proof.
  rewrite emit_int, edges_output. unfold middles.
  cbn [flat_map]. now rewrite flat_map_route_names.
Qed.

Lemma middles_inner (k : Z) (m : string) :
  In m (middles k) -> m <> "start" /\ m <> "finish".
Proof.
  intros [<-|Hm]; [split; discriminate|].
  split; intros ->;
    refine (reserved_not_entry_name _ (one_to k) _ Hm); simpl; auto.
Qed.

Lemma middles_spec (k : Z) (f p : pyval) (m : string) :
  In m (middles k) <->
  In m (added_names (spec_output k f p)) /\ m <> "start" /\ m <> "finish".
Proof.
  rewrite added_names_output. split.
  - intros Hm. split; [|now apply (middles_inner k)].
    destruct Hm as [<-|Hm]; [simpl; auto|].
    apply in_or_app. now right.
  - intros (Hm & Hs & Hf). apply in_app_or in Hm.
    destruct Hm as [[<-|[<-|[<-|[]]]]|Hm]; try congruence.
    + now left.
    + now right.
Qed.

Lemma middles_NoDup (k : Z) : NoDup (middles k).
Proof.
  constructor.
  - apply reserved_not_entry_name. simpl; auto.
  - apply node_names_NoDup, one_to_NoDup.
Qed.

Lemma in_route (e : string * string) (m : string) :
  In e (route m) <-> e = ("start", m) \/ e = (m, "finish").
Proof. unfold route; simpl. intuition congruence. Qed.

Lemma routes_NoDup (ms : list string) :
  NoDup ms ->
  (forall m, In m ms -> m <> "start" /\ m <> "finish") ->
  NoDup (flat_map route ms).
Proof.
  induction 1 as [|m ms Hm _ IH]; intros Hin; [constructor|].
  cbn [flat_map].
  destruct (Hin m (in_eq _ _)) as [Hs Hf].
  apply NoDup_app.
  - unfold route. repeat constructor; simpl; [|tauto].
    intros [E|[]]. inversion E. congruence.
  - apply IH. intros m' Hm'. apply Hin. now right.
  - intros e He Hrest.
    apply in_flat_map in Hrest. destruct Hrest as (m' & Hm' & He').
    apply in_route in He. apply in_route in He'.
    destruct He as [-> | ->], He' as [E|E]; inversion E; subst; tauto.
Qed.

(** X4: the graph described is one route of two edges,
    [start -> m -> finish], through every declared node [m] other than
    [start] and [finish]: these are all the edges, and none of them is
    printed twice. *)
Theorem X4_two_edge_routes (k : Z) (f p : pyval) :
  let out := emit (PyInt k) f p in
  (forall e,
     In e (edges out) <->
     exists m,
       In m (added_names out) /\ m <> "start" /\ m <> "finish" /\
       (e = ("start", m) \/ e = (m, "finish")))
  /\ NoDup (edges out).
Proof.
  intros out. subst out. rewrite emit_int, edges_output. split.
  - intros e. rewrite in_flat_map. split.
    + intros (m & Hm & He). exists m.
      apply (middles_spec k f p) in Hm. apply in_route in He. tauto.
    + intros (m & Hm & Hs & Hf & He). exists m.
      split; [apply (middles_spec k f p); tauto | now apply in_route].
  - apply routes_NoDup; [apply middles_NoDup | apply middles_inner].
Qed.

(** ** Fitness and weight texts *)

Lemma after_sep_prefix (a rest : string) :
  comma_free a = true ->
  after_sep (a ++ String "," (String " " rest)) = Some rest.
Proof.
  induction a as [|c a IH]; intros Ha; [reflexivity|].
  simpl in Ha. apply andb_prop in Ha. destruct Ha as [Hc Ha].
  apply negb_true_iff in Hc.
  change (String c a ++ String "," (String " " rest))%string
    with (String c (a ++ String "," (String " " rest))).
  assert (Hstep : forall t, after_sep (String c t) = after_sep t).
  { intros [|c' t]; simpl; [reflexivity|]. now rewrite Hc. }
  now rewrite Hstep, IH.
Qed.

Lemma fitness_text_entry (i : Z) (v : string) :
  fitness_text ("add, N" ++ str_int i ++ ", " ++ v) = Some v.
Proof.
  change ("add, N" ++ str_int i ++ ", " ++ v)%string
    with ("add" ++ String "," (String " "
           (entry_name i ++ String "," (String " " v))))%string.
  unfold fitness_text; cbn [from_field].
  rewrite after_sep_prefix by reflexivity.
  now rewrite after_sep_prefix by apply comma_free_entry_name.
Qed.

Lemma weight_text_start_entry (i : Z) (v : string) :
  weight_text ("connect, start, N" ++ str_int i ++ ", " ++ v) = Some v.
Proof.
  change ("connect, start, N" ++ str_int i ++ ", " ++ v)%string
    with ("connect" ++ String "," (String " "
           ("start" ++ String "," (String " "
             (entry_name i ++ String "," (String " " v))))))%string.
  unfold weight_text; cbn [from_field].
  rewrite !after_sep_prefix by reflexivity.
  now rewrite after_sep_prefix by apply comma_free_entry_name.
Qed.

Lemma weight_text_entry_finish (i : Z) :
  weight_text ("connect, N" ++ str_int i ++ ", finish, 0") = Some "0".
Proof.
  change ("connect, N" ++ str_int i ++ ", finish, 0")%string
    with ("connect" ++ String "," (String " "
           (entry_name i ++ String "," (String " " "finish, 0"))))%string.
  unfold weight_text; cbn [from_field].
  rewrite after_sep_prefix by reflexivity.
  now rewrite after_sep_prefix by apply comma_free_entry_name.
Qed.

(** X5: the last field of every line carries the value the script gave
    it.  An edge out of [start] has the text of [path_length] as its
    weight, the same at [B] and at every [Ni], and an edge into [finish]
    has weight [0]; the fitness is [1] for [start], [9] for [B], ["10 "]
    for [finish] and the text of [other_path_fitness] for every other
    node. *)
Theorem X5_weights_and_fitness (k : Z) (f p : pyval) (l : string) :
  In l (emit (PyInt k) f p) ->
  (forall a b, connect_ends l = Some (a, b) ->
     (a = "start" -> weight_text l = Some (str p)) /\
     (b = "finish" -> weight_text l = Some "0") /\
     (a = "start" \/ b = "finish"))
  /\ (forall n, add_name l = Some n ->
       (n = "start" -> fitness_text l = Some "1") /\
       (n = "B" -> fitness_text l = Some "9") /\
       (n = "finish" -> fitness_text l = Some "10 ") /\
       (n <> "start" -> n <> "B" -> n <> "finish" ->
        fitness_text l = Some (str f))).
Proof.
  intros Hl. apply in_emit in Hl. destruct Hl as [Hl|(i & Hl)].
  - unfold spec_header in Hl. cbn [In] in Hl.
    destruct Hl as [<-|[<-|[<-|[<-|[<-|[<-|[<-|[<-|[]]]]]]]]];
      (split; [intros a b E | intros n E]); vm_compute in E;
      inversion E; subst; repeat split; auto; congruence.
  - destruct (entry_reading f p i) as [Ha Hc].
    unfold spec_entry in *.
    pick Ha 0%nat (@None string) Ha1. pick Ha 1%nat (@None string) Ha2.
    pick Ha 2%nat (@None string) Ha3.
    pick Hc 0%nat (@None (string * string)) Hc1.
    pick Hc 1%nat (@None (string * string)) Hc2.
    pick Hc 2%nat (@None (string * string)) Hc3.
    assert (Hs : entry_name i <> "start") by discriminate.
    assert (Hb : entry_name i <> "B") by discriminate.
    assert (Hf : entry_name i <> "finish") by discriminate.
    cbn [In] in Hl. destruct Hl as [<-|[<-|[<-|[]]]];
      (split; [intros a b E | intros n E]).
    + rewrite Hc1 in E. discriminate E.
    + rewrite Ha1 in E. inversion E; subst.
      rewrite fitness_text_entry. repeat split; auto; congruence.
    + rewrite Hc2 in E. inversion E; subst.
      rewrite weight_text_start_entry. repeat split; auto; congruence.
    + rewrite Ha2 in E. discriminate E.
    + rewrite Hc3 in E. inversion E; subst.
      rewrite weight_text_entry_finish. repeat split; auto; congruence.
    + rewrite Ha3 in E. discriminate E.
Qed.

(** ** Counts, growth and dependence on the constants *)

Lemma count_none (test : string -> bool) (ls : list string) :
  Forall (fun l => test l = false) ls -> count test ls = 0%nat.
Proof.
  induction 1 as [|l ls Hl _ IH]; [reflexivity|].
  unfold count in *. cbn [filter]. now rewrite Hl.
Qed.

(** X6: the number of lines of each kind, for every integer count [k]:
    [3 + max 0 k] node lines, [2 + 2 * max 0 k] edge lines and 3 blank
    lines, [8 + 3 * max 0 k] lines in all. *)
Theorem X6_line_counts (k : Z) (f p : pyval) :
  let out := emit (PyInt k) f p in
  Z.of_nat (count is_add out) = 3 + Z.max 0 k
  /\ Z.of_nat (count is_connect out) = 2 + 2 * Z.max 0 k
  /\ Z.of_nat (count is_blank out) = 3
  /\ Z.of_nat (List.length out) = 8 + 3 * Z.max 0 k.
Proof.
  intros out. subst out. rewrite emit_int.
  destruct (count_output k f p) as (Ha & Hc & _).
  rewrite Ha, Hc, spec_output_length.
  repeat split; try lia.
  unfold spec_output. rewrite count_app.
  rewrite (count_none is_blank (flat_map _ _)) by apply entries_not_blank.
  reflexivity.
Qed.

Lemma one_to_split (j k : Z) :
  j <= k ->
  one_to k =
  one_to j ++
  map Z.of_nat (seq (1 + Z.to_nat j) (Z.to_nat k - Z.to_nat j)).
Proof.
  intros Hjk. unfold one_to.
  rewrite <- map_app, <- seq_app.
  do 2 f_equal. lia.
Qed.

(** X7: a smaller count gives a prefix of the output of a larger one:
    for [j <= k] the output for [k] is the output for [j] followed by
    three lines for each further distractor. *)
Theorem X7_prefix_of_larger_count (j k : Z) (f p : pyval) :
  j <= k ->
  exists ext,
    emit (PyInt k) f p = emit (PyInt j) f p ++ ext
    /\ Z.of_nat (List.length ext) = 3 * (Z.max 0 k - Z.max 0 j).
Proof.
  intros Hjk. rewrite !emit_int. unfold spec_output.
  rewrite (one_to_split j k Hjk), flat_map_app, app_assoc.
  eexists. split; [reflexivity|].
  rewrite entries_length, length_map, length_seq. lia.
Qed.

Lemma filter_entries (test : string -> bool) (f f' p p' : pyval) :
  (forall i, filter test (spec_entry f p i) = filter test (spec_entry f' p' i)) ->
  forall l,
    filter test (flat_map (spec_entry f p) l) =
    filter test (flat_map (spec_entry f' p') l).
Proof.
  intros H l. induction l as [|i l IH]; [reflexivity|].
  change (flat_map (spec_entry f p) (i :: l))
    with (spec_entry f p i ++ flat_map (spec_entry f p) l).
  change (flat_map (spec_entry f' p') (i :: l))
    with (spec_entry f' p' i ++ flat_map (spec_entry f' p') l).
  now rewrite !filter_app, H, IH.
Qed.

Lemma entry_without_add (f f' p : pyval) (i : Z) :
  filter (fun l => negb (is_add l)) (spec_entry f p i) =
  filter (fun l => negb (is_add l)) (spec_entry f' p i).
Proof.
  pose proof (is_add_entry f p i) as H.
  pose proof (is_add_entry f' p i) as H'.
  unfold spec_entry in *.
  pick H 0%nat false H1. pick H 1%nat false H2. pick H 2%nat false H3.
  pick H' 0%nat false H1'.
  cbn [filter]. now rewrite H1, H1', H2, H3.
Qed.

Lemma entry_without_connect (f p p' : pyval) (i : Z) :
  filter (fun l => negb (is_connect l)) (spec_entry f p i) =
  filter (fun l => negb (is_connect l)) (spec_entry f p' i).
Proof.
  pose proof (is_connect_entry f p i) as H.
  pose proof (is_connect_entry f p' i) as H'.
  unfold spec_entry in *.
  pick H 0%nat false H1. pick H 1%nat false H2. pick H 2%nat false H3.
  pick H' 1%nat false H2'.
  cbn [filter]. now rewrite H1, H2, H2', H3.
Qed.

Lemma header_without_connect (p p' : pyval) :
  filter (fun l => negb (is_connect l)) (spec_header p) =
  filter (fun l => negb (is_connect l)) (spec_header p').
Proof.
  pose proof (kind_of_header p) as H. pose proof (kind_of_header p') as H'.
  unfold spec_header in *.
  pick H 3%nat (false, false, false) H4.
  pick H' 3%nat (false, false, false) H4'.
  assert (Hc := f_equal snd H4). assert (Hc' := f_equal snd H4').
  unfold kind_of in Hc, Hc'. cbn [snd] in Hc, Hc'.
  cbn [filter]. now rewrite Hc, Hc'.
Qed.

(** X8: [other_path_fitness] reaches the node lines only, and
    [path_length] reaches the edge lines only: with the node lines left
    out the output does not depend on the fitness, and with the edge
    lines left out it does not depend on the path length. *)
Theorem X8_constants_reach_their_lines (n f f' p p' : pyval) :
  filter (fun l => negb (is_add l)) (emit n f p) =
  filter (fun l => negb (is_add l)) (emit n f' p)
  /\ filter (fun l => negb (is_connect l)) (emit n f p) =
     filter (fun l => negb (is_connect l)) (emit n f p').
Proof.
  destruct n as [k|x].
  - rewrite !emit_int. unfold spec_output. rewrite !filter_app. split.
    + f_equal. apply filter_entries. intros i. apply entry_without_add.
    + rewrite (header_without_connect p p'). f_equal.
      apply filter_entries. intros i. apply entry_without_connect.
  - rewrite !emit_float. split; [reflexivity | apply header_without_connect].
Qed.

(** X1: a count that is not an integer stops the script at [range]: the
    header block is already written, no distractor line follows, and the
    interpreter exits with status 1. *)
Theorem X1_float_count_stops (x : float) (f p : pyval) (out : stream) :
  main (PyFloat x) f p out = (Raised TypeError, out ++ emit (PyInt 0) f p)
  /\ exit_code (fst (main (PyFloat x) f p out)) = 1
  /\ edges (emit (PyFloat x) f p) = [("start", "B"); ("B", "finish")].
Proof.
  rewrite main_float, emit_float, emit_int, edges_header.
  repeat split.
Qed.

End Graph.

(** ** The script on concrete constants *)

(** C1 at [k = 2], with the constants of the script for the other two. *)
Lemma C1_output_exact_witness :
  0 <= 2 /\
  emit (PyInt 2) (PyFloat tenth) (PyInt 7) =
  [ "add, start, 1"; ""; "add, B, 9"; "connect, start, B, 7"; "";
    "add, finish, 10 "; "connect, B, finish, 0"; "";
    "add, N1, 0.1"; "connect, start, N1, 7"; "connect, N1, finish, 0";
    "add, N2, 0.1"; "connect, start, N2, 7"; "connect, N2, finish, 0" ].
Proof.
  split; [lia|].
  exact (proj1 (C1_output_exact 2 (PyFloat tenth) (PyInt 7) ltac:(lia))).
Defined.

(** C2 as first stated does not hold: the script on its own constants
    prints neither 201 lines besides the blank ones nor 101 [connect]
    lines. *)
Lemma C2_stated_counts_fail :
  ~ (count (fun l => negb (is_blank l)) (snd (haystack_gen [])) = 201%nat
     /\ count is_add (snd (haystack_gen [])) = 102%nat
     /\ count is_connect (snd (haystack_gen [])) = 101%nat).
Proof.
  vm_compute. intros (H & _). discriminate H.
Qed.

(** C3 as first stated does not hold: with a count of 0 the output has
    neither seven lines in all nor seven lines besides its three blank
    ones. *)
Lemma C3_stated_size_fails :
  ~ ((List.length (emit (PyInt 0) (PyFloat tenth) (PyInt 7)) = 7%nat
      \/ count (fun l => negb (is_blank l))
            (emit (PyInt 0) (PyFloat tenth) (PyInt 7)) = 7%nat)
     /\ count is_blank (emit (PyInt 0) (PyFloat tenth) (PyInt 7)) = 3%nat).
Proof.
  vm_compute. intros ([H|H] & _); discriminate H.
Qed.

(** C4 at [k = 2]. *)
Lemma C4_declared_names_witness :
  0 <= 2 /\
  (forall n,
     In n (added_names (emit (PyInt 2) (PyFloat tenth) (PyInt 7))) <->
     n = "start" \/ n = "B" \/ n = "finish" \/
     exists i, 1 <= i <= 2 /\ n = ("N" ++ str_int i)%string) /\
  (forall n,
     In n (added_names (emit (PyInt 2) (PyFloat tenth) (PyInt 7))) ->
     count_occ string_dec
       (added_names (emit (PyInt 2) (PyFloat tenth) (PyInt 7))) n = 1%nat).
Proof.
  split; [lia|].
  apply (C4_declared_names 2 (PyFloat tenth) (PyInt 7)). lia.
Defined.

(** C5 at [k = 1], on the edge from [start] to [N1]. *)
Lemma C5_declared_before_connected_witness :
  0 <= 1 /\
  emit (PyInt 1) (PyFloat tenth) (PyInt 7) =
    ([ "add, start, 1"; ""; "add, B, 9"; "connect, start, B, 7"; "";
       "add, finish, 10 "; "connect, B, finish, 0"; ""; "add, N1, 0.1" ]
     ++ "connect, start, N1, 7" :: [ "connect, N1, finish, 0" ])%list /\
  connect_ends "connect, start, N1, 7" = Some ("start", "N1") /\
  In "start" ["start"; "B"; "finish"; "N1"] /\
  In "N1" ["start"; "B"; "finish"; "N1"].
Proof.
  split; [lia|].
  split; [reflexivity|].
  split; [reflexivity|].
  apply (C5_declared_before_connected 1 (PyFloat tenth) (PyInt 7) ltac:(lia)
           [ "add, start, 1"; ""; "add, B, 9"; "connect, start, B, 7"; "";
             "add, finish, 10 "; "connect, B, finish, 0"; "";
             "add, N1, 0.1" ]
           "connect, start, N1, 7" [ "connect, N1, finish, 0" ]
           "start" "N1");
    reflexivity.
Defined.

(** C6 at [k = -3]. *)
Lemma C6_negative_count_witness :
  -3 < 0 /\
  status (PyInt (-3)) (PyFloat tenth) (PyInt 7) = Done tt /\
  emit (PyInt (-3)) (PyFloat tenth) (PyInt 7) =
  [ "add, start, 1"; ""; "add, B, 9"; "connect, start, B, 7"; "";
    "add, finish, 10 "; "connect, B, finish, 0"; "" ].
Proof.
  split; [lia|].
  apply (C6_negative_count (-3) (PyFloat tenth) (PyInt 7)). lia.
Defined.



(** C9 at [k = 1]. *)
Lemma C9_prefix_monotone_witness :
  0 <= 1 /\
  emit (PyInt 2) (PyFloat tenth) (PyInt 7) =
  (emit (PyInt 1) (PyFloat tenth) (PyInt 7) ++
   [ "add, N2, 0.1"; "connect, start, N2, 7"; "connect, N2, finish, 0" ])%list.
Proof.
  split; [lia|].
  exact (proj1 (C9_prefix_monotone 1 (PyFloat tenth) (PyInt 7) ltac:(lia))).
Defined.

(** X2 at the node line of [finish], with a count of 1. *)
Lemma X2_lines_classified_witness :
  In "add, finish, 10 " (emit (PyInt 1) (PyFloat tenth) (PyInt 7)) /\
  (kind_of "add, finish, 10 " = (true, false, false)
   \/ kind_of "add, finish, 10 " = (false, true, false)
   \/ kind_of "add, finish, 10 " = (false, false, true)).
Proof.
  split; [do 5 right; left; reflexivity|].
  apply (X2_lines_classified (PyInt 1) (PyFloat tenth) (PyInt 7)).
  do 5 right; left; reflexivity.
Defined.

(** X5 at the edge from [start] to [N1], with a count of 1. *)
Lemma X5_weights_and_fitness_witness :
  In "connect, start, N1, 7" (emit (PyInt 1) (PyFloat tenth) (PyInt 7)) /\
  connect_ends "connect, start, N1, 7" = Some ("start", "N1") /\
  weight_text "connect, start, N1, 7" = Some "7".
Proof.
  split; [do 9 right; left; reflexivity|].
  split; [reflexivity|].
  apply (proj1 (X5_weights_and_fitness 1 (PyFloat tenth) (PyInt 7)
                  "connect, start, N1, 7"
                  ltac:(do 9 right; left; reflexivity))
           "start" "N1" eq_refl).
  reflexivity.
Defined.

(** X7 at [j = 1] and [k = 3]. *)
Lemma X7_prefix_of_larger_count_witness :
  1 <= 3 /\
  exists ext,
    emit (PyInt 3) (PyFloat tenth) (PyInt 7) =
    (emit (PyInt 1) (PyFloat tenth) (PyInt 7) ++ ext)%list
    /\ Z.of_nat (List.length ext) = 3 * (Z.max 0 3 - Z.max 0 1).
Proof.
  split; [lia|].
  apply (X7_prefix_of_larger_count 1 3 (PyFloat tenth) (PyInt 7)). lia.
Defined.

(** ** Sanity checks of the embedding *)

Example str_int_samples :
  str_int 0 = "0" /\ str_int 7 = "7" /\ str_int 100 = "100" /\
  str_int (-42) = "-42".
Proof. repeat split. Qed.

Example emit_two :
  emit (PyInt 2) (PyFloat tenth) (PyInt 7) =
  [ "add, start, 1"; ""; "add, B, 9"; "connect, start, B, 7"; "";
    "add, finish, 10 "; "connect, B, finish, 0"; "";
    "add, N1, 0.1"; "connect, start, N1, 7"; "connect, N1, finish, 0";
    "add, N2, 0.1"; "connect, start, N2, 7"; "connect, N2, finish, 0" ].
Proof. reflexivity. Qed.

Example over_limit_samples :
  over_limit 3 999 = false /\ over_limit 3 1000 = true /\
  over_limit 3 (-1000) = true /\ over_limit 0 1000 = false.
Proof. repeat split. Qed.

Example split_lines_samples :
  split_lines (stdout_text ["add, B, 9"; ""; "connect, B, finish, 0"]) =
  ["add, B, 9"; ""; "connect, B, finish, 0"].
Proof. reflexivity. Qed.

Example fields_samples :
  fields "add, finish, 10 " = ["add"; "finish"; "10 "] /\
  fields "connect, start, B, 7" = ["connect"; "start"; "B"; "7"] /\
  fields "" = [""] /\
  fields "a,, b" = ["a,"; "b"].
Proof. repeat split. Qed.
